(** * telegram-news-bot: the deduplication and persistence core of [main.py]

    A shallow embedding of [src/main.py] and the properties of its
    fingerprinting, seen-set pruning, candidate filter, digest assembly and
    persistence.

    Conventions of the embedding.
    - A Python [str] is a list of Unicode code points ([str := list N]).
    - A Python [set] of strings is a [gset str].
    - A [datetime] is a wall-clock reading in microseconds together with an
      optional UTC offset; the year 1..9999 range of Python's [datetime] is not
      modelled.
    - Library calls whose result the program only consumes ([str.lower],
      [dateutil.parser.parse], [langdetect.detect], [json.load]/[json.dump],
      [datetime.isoformat]/[strftime]) are the fields of the class [PyLib];
      [None] stands for a raised exception.
    - The process state threaded through [main] is the record [world]: the
      content of [seen.json] and the trace of observable calls. *)

From Stdlib Require Import ZArith NArith List String Ascii Lia Bool Sorted Permutation.
From stdpp Require Import base option list gmap.

Import ListNotations.
#[local] Open Scope N_scope.

(** ** Strings *)

Definition str : Type := list N.

(** UTF-8 decoding of a source literal: a Rocq [string] holds the bytes of the
    literal as they stand in this file. *)
Fixpoint utf8_decode (fuel : nat) (bs : list N) : str :=
  match fuel with
  | O => []
  | S fuel =>
    match bs with
    | [] => []
    | b0 :: r0 =>
      if b0 <? 0x80 then b0 :: utf8_decode fuel r0
      else if b0 <? 0xE0 then
        match r0 with
        | b1 :: r1 =>
            ((b0 - 0xC0) * 64 + (b1 - 0x80)) :: utf8_decode fuel r1
        | _ => []
        end
      else if b0 <? 0xF0 then
        match r0 with
        | b1 :: b2 :: r2 =>
            ((b0 - 0xE0) * 4096 + (b1 - 0x80) * 64 + (b2 - 0x80))
              :: utf8_decode fuel r2
        | _ => []
        end
      else
        match r0 with
        | b1 :: b2 :: b3 :: r3 =>
            ((b0 - 0xF0) * 262144 + (b1 - 0x80) * 4096 + (b2 - 0x80) * 64
             + (b3 - 0x80)) :: utf8_decode fuel r3
        | _ => []
        end
    end
  end.

Definition lit (s : string) : str :=
  let bs := map N_of_ascii (list_ascii_of_string s) in
  utf8_decode (length bs) bs.

(** [s.encode("utf-8")] *)
Definition utf8_char (c : N) : list N :=
  if c <? 0x80 then [c]
  else if c <? 0x800 then [0xC0 + c / 64; 0x80 + c mod 64]
  else if c <? 0x10000 then
    [0xE0 + c / 4096; 0x80 + (c / 64) mod 64; 0x80 + c mod 64]
  else
    [0xF0 + c / 262144; 0x80 + (c / 4096) mod 64; 0x80 + (c / 64) mod 64;
     0x80 + c mod 64].

Definition utf8_encode (s : str) : list N := flat_map utf8_char s.

(** [str.isspace] of one character; also the class [\s] of [re] on [str]
    patterns and the characters removed by [str.strip()]. *)
Definition isspace (c : N) : bool :=
  ((9 <=? c) && (c <=? 13)) || ((28 <=? c) && (c <=? 32))
  || (c =? 0x85) || (c =? 0xA0) || (c =? 0x1680)
  || ((0x2000 <=? c) && (c <=? 0x200A))
  || (c =? 0x2028) || (c =? 0x2029) || (c =? 0x202F) || (c =? 0x205F)
  || (c =? 0x3000).

Fixpoint lstrip (s : str) : str :=
  match s with
  | [] => []
  | c :: r => if isspace c then lstrip r else s
  end.

Definition rstrip (s : str) : str := rev (lstrip (rev s)).

(** [s.strip()] *)
Definition strip (s : str) : str := rstrip (lstrip s).

(** Truth value of a [str]: [if s] holds when [s] is not empty. *)
Definition truthy (s : str) : bool :=
  match s with [] => false | _ :: _ => true end.

(** Truth value of [d.get(k)] / [getattr(o, k, None)]: absent and empty are
    both false. *)
Definition truthy_opt (o : option str) : bool :=
  match o with Some s => truthy s | None => false end.

(** ** Regular-expression substitutions used by the program *)

(** [re.sub(r"\s+", " ", t)]: every maximal run of white space becomes one
    space. [in_run] tells that the previous character was white space. *)
Fixpoint sub_spaces_from (in_run : bool) (t : str) : str :=
  match t with
  | [] => []
  | c :: r =>
      if isspace c
      then (if in_run then sub_spaces_from true r
            else 32 :: sub_spaces_from true r)
      else c :: sub_spaces_from false r
  end.

Definition sub_spaces (t : str) : str := sub_spaces_from false t.

Definition occurs (c : N) (t : str) : bool := existsb (N.eqb c) t.

(** [re.sub(open [^close]* close, " ", t)] for two distinct delimiter
    characters: scanning from the left, an opening delimiter that is followed
    somewhere by a closing one is replaced, together with everything up to the
    first closing delimiter, by one space. [inside] tells that the scan is in
    the middle of such a match. *)
Fixpoint sub_delimited_from (op cl : N) (inside : bool) (t : str) : str :=
  match t with
  | [] => []
  | c :: r =>
      if inside
      then (if c =? cl then sub_delimited_from op cl false r
            else sub_delimited_from op cl true r)
      else if (c =? op) && occurs cl r
           then 32 :: sub_delimited_from op cl true r
           else c :: sub_delimited_from op cl false r
  end.

Definition sub_delimited (op cl : N) (t : str) : str :=
  sub_delimited_from op cl false t.

(** [re.sub(r"\[[^\]]*\]", " ", t)] and [re.sub(r"\([^\)]*\)", " ", t)] *)
Definition sub_brackets : str -> str := sub_delimited 91 93.
Definition sub_parens : str -> str := sub_delimited 40 41.

(** The text after a [#] matches [.*$] when it holds no newline, or exactly one
    newline as its last character ([.] does not match a newline, and [$]
    matches at the end and just before a final newline). *)
Fixpoint fragment_to_end (r : str) : bool :=
  match r with
  | [] => true
  | c :: r' =>
      if c =? 10 then (match r' with [] => true | _ => false end)
      else fragment_to_end r'
  end.

Definition final_newline (r : str) : str :=
  match last r with Some 10 => [10] | _ => [] end.

(** [re.sub(r"#.*$", "", url)] *)
Fixpoint sub_fragment (t : str) : str :=
  match t with
  | [] => []
  | c :: r =>
      if (c =? 35) && fragment_to_end r then final_newline r
      else c :: sub_fragment r
  end.

(** After a [<], the pattern [[^<]+?>] needs one character that is not [<] and
    then, before any further [<], a [>]. [tag_closes] is the second part. *)
Fixpoint tag_closes (r : str) : bool :=
  match r with
  | [] => false
  | c :: r' =>
      if c =? 62 then true else if c =? 60 then false else tag_closes r'
  end.

Definition tag_starts (r : str) : bool :=
  match r with
  | [] => false
  | c :: r' => negb (c =? 60) && tag_closes r'
  end.

Inductive tag_scan := Outside | TagFirst | TagBody.

(** [re.sub('<[^<]+?>', ' ', summary)] *)
Fixpoint sub_tags_from (st : tag_scan) (t : str) : str :=
  match t with
  | [] => []
  | c :: r =>
      match st with
      | Outside =>
          if (c =? 60) && tag_starts r then 32 :: sub_tags_from TagFirst r
          else c :: sub_tags_from Outside r
      | TagFirst => sub_tags_from TagBody r
      | TagBody =>
          if c =? 62 then sub_tags_from Outside r else sub_tags_from TagBody r
      end
  end.

Definition sub_tags (t : str) : str := sub_tags_from Outside t.

(** ** SHA-256 ([hashlib.sha256]) on 32-bit words held in [N] *)

Module Sha256.

Definition w32 (x : N) : N := x mod 2 ^ 32.
Definition add32 (x y : N) : N := w32 (x + y).
Definition rotr (n x : N) : N :=
  N.lor (N.shiftr x n) (w32 (N.shiftl x (32 - n))).
Definition not32 (x : N) : N := 2 ^ 32 - 1 - x.

Definition Ch (x y z : N) : N :=
  N.lxor (N.land x y) (N.land (not32 x) z).
Definition Maj (x y z : N) : N :=
  N.lxor (N.lxor (N.land x y) (N.land x z)) (N.land y z).
Definition Sigma0 (x : N) : N :=
  N.lxor (N.lxor (rotr 2 x) (rotr 13 x)) (rotr 22 x).
Definition Sigma1 (x : N) : N :=
  N.lxor (N.lxor (rotr 6 x) (rotr 11 x)) (rotr 25 x).
Definition sigma0 (x : N) : N :=
  N.lxor (N.lxor (rotr 7 x) (rotr 18 x)) (N.shiftr x 3).
Definition sigma1 (x : N) : N :=
  N.lxor (N.lxor (rotr 17 x) (rotr 19 x)) (N.shiftr x 10).

(** The round constants and the initial state are defined as the standard
    defines them: the first 32 bits of the fractional parts of the cube roots
    of the first 64 primes, and of the square roots of the first 8. *)
Definition is_prime (n : N) : bool :=
  forallb (fun d => negb (n mod N.of_nat d =? 0)) (seq 2 (N.to_nat n - 2)).

Definition primes : list N :=
  List.filter is_prime (map N.of_nat (seq 2 310)).

(** The integer cube root of [x], found bit by bit below [2 ^ bits]. *)
Fixpoint cube_root_bits (bits : nat) (x r : N) : N :=
  match bits with
  | O => r
  | S b =>
      let r' := r + 2 ^ N.of_nat b in
      cube_root_bits b x (if r' * r' * r' <=? x then r' else r)
  end.

Definition cube_root_frac (p : N) : N :=
  w32 (cube_root_bits 36 (p * 2 ^ 96) 0).

Definition square_root_frac (p : N) : N := w32 (N.sqrt (p * 2 ^ 64)).

Definition K : list N := Eval vm_compute in map cube_root_frac primes.

Record state := State { ha : N; hb : N; hc : N; hd : N;
                        he : N; hf : N; hg : N; hh : N }.

Definition H0 : state :=
  Eval vm_compute in
    State (square_root_frac 2) (square_root_frac 3) (square_root_frac 5)
          (square_root_frac 7) (square_root_frac 11) (square_root_frac 13)
          (square_root_frac 17) (square_root_frac 19).

(** Padding: the byte 0x80, zero bytes up to 56 modulo 64, and the bit
    length on eight bytes, most significant first. *)
Definition be_bytes (n : nat) (x : N) : list N :=
  map (fun i => (x / 256 ^ N.of_nat i) mod 256) (rev (seq 0 n)).

Definition pad (msg : list N) : list N :=
  let len := N.of_nat (length msg) in
  let zeros := N.to_nat ((64 + 55 - len mod 64) mod 64) in
  msg ++ [0x80] ++ repeat 0 zeros ++ be_bytes 8 (8 * len).

Definition be_word (b : list N) : N :=
  fold_left (fun acc x => acc * 256 + x) b 0.

(** The big-endian words of a byte string, four bytes at a time. *)
Fixpoint words (n : nat) (bs : list N) : list N :=
  match n with
  | O => []
  | S n => be_word (firstn 4 bs) :: words n (skipn 4 bs)
  end.

(** Message schedule, most recent word first: [prev] holds
    W[t-1], W[t-2], ... *)
Fixpoint schedule (n : nat) (prev : list N) : list N :=
  match n with
  | O => prev
  | S n =>
      let w := add32 (add32 (sigma1 (nth 1 prev 0)) (nth 6 prev 0))
                     (add32 (sigma0 (nth 14 prev 0)) (nth 15 prev 0)) in
      schedule n (w :: prev)
  end.

Definition round (s : state) (kw : N * N) : state :=
  let t1 := add32 (add32 (add32 (hh s) (Sigma1 (he s)))
                         (add32 (Ch (he s) (hf s) (hg s)) (fst kw)))
                  (snd kw) in
  let t2 := add32 (Sigma0 (ha s)) (Maj (ha s) (hb s) (hc s)) in
  State (add32 t1 t2) (ha s) (hb s) (hc s)
        (add32 (hd s) t1) (he s) (hf s) (hg s).

Definition compress (h : state) (block : list N) : state :=
  let w := rev (schedule 48 (rev (words 16 block))) in
  let s := fold_left round (combine K w) h in
  State (add32 (ha h) (ha s)) (add32 (hb h) (hb s))
        (add32 (hc h) (hc s)) (add32 (hd h) (hd s))
        (add32 (he h) (he s)) (add32 (hf h) (hf s))
        (add32 (hg h) (hg s)) (add32 (hh h) (hh s)).

Fixpoint blocks (n : nat) (h : state) (bs : list N) : state :=
  match n with
  | O => h
  | S n => blocks n (compress h (firstn 64 bs)) (skipn 64 bs)
  end.

Definition digest (msg : list N) : state :=
  let p := pad msg in
  blocks (length p / 64) H0 p.

Definition hex_digit (d : N) : N := if d <? 10 then 48 + d else 87 + d.

Definition hex_word (w : N) : str :=
  [hex_digit ((w / 0x10000000) mod 16); hex_digit ((w / 0x1000000) mod 16);
   hex_digit ((w / 0x100000) mod 16); hex_digit ((w / 0x10000) mod 16);
   hex_digit ((w / 0x1000) mod 16); hex_digit ((w / 0x100) mod 16);
   hex_digit ((w / 0x10) mod 16); hex_digit (w mod 16)].

(** [hashlib.sha256(bs).hexdigest()] *)
Definition hexdigest (msg : list N) : str :=
  let s := digest msg in
  hex_word (ha s) ++ hex_word (hb s) ++ hex_word (hc s) ++ hex_word (hd s)
  ++ hex_word (he s) ++ hex_word (hf s) ++ hex_word (hg s)
  ++ hex_word (hh s).

End Sha256.

(** ** Fingerprints *)

(** [sha(s)] *)
Definition sha (s : str) : str := Sha256.hexdigest (utf8_encode s).

(** [normalize_url(url)] *)
Definition normalize_url (url : str) : str := sub_fragment (strip url).

Definition NL : str := [10].
Definition DQUOTE : str := [34].

(** [re.search(r"[가-힣]", text)]: some character is a Hangul syllable. *)
Definition has_hangul (text : str) : bool :=
  existsb (fun c => (0xAC00 <=? c) && (c <=? 0xD7A3)) text.

(** Decimal text of a number, as [print] and f-strings write an [int]. *)
Fixpoint uint_str (d : Decimal.uint) : str :=
  match d with
  | Decimal.Nil => []
  | Decimal.D0 d => 48 :: uint_str d
  | Decimal.D1 d => 49 :: uint_str d
  | Decimal.D2 d => 50 :: uint_str d
  | Decimal.D3 d => 51 :: uint_str d
  | Decimal.D4 d => 52 :: uint_str d
  | Decimal.D5 d => 53 :: uint_str d
  | Decimal.D6 d => 54 :: uint_str d
  | Decimal.D7 d => 55 :: uint_str d
  | Decimal.D8 d => 56 :: uint_str d
  | Decimal.D9 d => 57 :: uint_str d
  end.

Definition str_of_nat (n : nat) : str := uint_str (Nat.to_uint n).

(** [sep.join(parts)] *)
Fixpoint join (sep : str) (parts : list str) : str :=
  match parts with
  | [] => []
  | [p] => p
  | p :: rest => p ++ sep ++ join sep rest
  end.

(** [urllib.parse.quote_plus(query)]: the UTF-8 bytes of the text, with
    letters, digits and [_.-~] kept, a space written [+], and every other byte
    written [%XX]. *)
Definition url_safe (b : N) : bool :=
  ((48 <=? b) && (b <=? 57)) || ((65 <=? b) && (b <=? 90))
  || ((97 <=? b) && (b <=? 122))
  || (b =? 95) || (b =? 46) || (b =? 45) || (b =? 126).

Definition upper_hex (d : N) : N := if d <? 10 then 48 + d else 55 + d.

Definition quote_byte (b : N) : str :=
  if url_safe b then [b]
  else if b =? 32 then [43]
  else [37; upper_hex (b / 16); upper_hex (b mod 16)].

Definition quote_plus (query : str) : str :=
  flat_map quote_byte (utf8_encode query).

(** [google_news_rss_url(query)] *)
Definition google_news_rss_url (query : str) : str :=
  lit "https://news.google.com/rss/search?q=" ++ quote_plus query
  ++ lit "&hl=en-US&gl=US&ceid=US:en".

Definition QUERIES : list str :=
  [ lit "NextBiomedical OR " ++ DQUOTE ++ lit "Next Biomedical" ++ DQUOTE
    ++ lit " OR " ++ DQUOTE ++ lit "Nextbiomedical" ++ DQUOTE
    ++ lit " OR 넥스트바이오메디컬";
    lit "nexpowder OR " ++ DQUOTE ++ lit "Nex Powder" ++ DQUOTE
    ++ lit " OR 넥스파우더";
    DQUOTE ++ lit "nexsphere f" ++ DQUOTE ++ lit " OR " ++ DQUOTE
    ++ lit "Nexsphere-f" ++ DQUOTE ++ lit " OR " ++ DQUOTE
    ++ lit "Nexsphere F" ++ DQUOTE ++ lit " OR 넥스피어F OR 넥스피어 F" ].

#[local] Close Scope N_scope.
#[local] Open Scope Z_scope.

(** ** Dates and times *)

(** What [dateutil.parser.parse] returns: a wall-clock reading (microseconds)
    and the UTC offset named by the text, if it names one. *)
Record parsed_time := ParsedTime { p_wall : Z; p_tzinfo : option Z }.

(** A time-zone aware [datetime]. *)
Record datetime := Datetime { wall : Z; utcoffset : Z }.

Definition hours (h : Z) : Z := h * 3600 * 1000000.
Definition days (d : Z) : Z := hours (24 * d).

Definition UTC : Z := 0.
Definition KST : Z := hours 9.
Definition KEEP_DAYS : Z := 45.

(** The instant a [datetime] denotes; aware datetimes compare by it. *)
Definition instant (d : datetime) : Z := wall d - utcoffset d.

Definition dt_lt (a b : datetime) : bool := instant a <? instant b.
Definition dt_ge (a b : datetime) : bool := instant b <=? instant a.

(** [if dt.tzinfo is None: dt = dt.replace(tzinfo=timezone.utc)] *)
Definition assume_utc (p : parsed_time) : datetime :=
  match p_tzinfo p with
  | None => Datetime (p_wall p) UTC
  | Some off => Datetime (p_wall p) off
  end.

(** [dt.astimezone(tz)] *)
Definition astimezone (d : datetime) (tz : Z) : datetime :=
  Datetime (wall d - utcoffset d + tz) tz.

(** [dt - timedelta] *)
Definition dt_sub (d : datetime) (delta : Z) : datetime :=
  Datetime (wall d - delta) (utcoffset d).

(** [datetime.now(tz)] when the clock reads the instant [clock] *)
Definition datetime_now (tz : Z) (clock : Z) : datetime :=
  Datetime (clock + tz) tz.

(** ** Records of the program *)

(** One element of the ["items"] list of [seen.json]; a field is [None] when
    the key is absent, as [it.get] reports it. *)
Record seen_item := SeenItem {
  it_ts : option str;
  it_url_key : option str;
  it_title_key : option str;
  it_url : option str;
  it_title : option str
}.

(** One entry of a parsed feed; a field is [None] when the entry lacks the
    attribute. *)
Record entry := Entry {
  e_title : option str;
  e_link : option str;
  e_summary : option str;
  e_published : option str;
  e_updated : option str
}.

(** One element of [collected]. *)
Record candidate := Candidate {
  c_title : str;
  c_url : str;
  c_published : datetime;
  c_url_key : str;
  c_title_key : str
}.

(** ** The libraries the program calls *)

Class PyLib := {
  (** [str.lower] *)
  str_lower : str -> str;
  (** [int(text)]; [None] when it raises [ValueError] *)
  py_int : str -> option Z;
  (** [dateutil.parser.parse]; [None] when it raises *)
  dtparser_parse : str -> option parsed_time;
  (** [langdetect.detect]; [None] when it raises [LangDetectException] *)
  detect : str -> option str;
  (** [datetime.isoformat] *)
  isoformat : datetime -> str;
  (** [datetime.strftime("%m-%d %H:%M KST")] *)
  strftime : datetime -> str;
  (** [json.load] of the text of [seen.json], followed by the look-up of
      ["items"]: [None] when the text is not JSON, [Some None] when the
      document has no ["items"]. *)
  json_load : str -> option (option (list seen_item));
  (** the text [json.dump({"items": items}, f, ensure_ascii=False, indent=2)]
      writes *)
  json_dump : list seen_item -> str
}.

(** ** Effects: exceptions, the file [seen.json], the trace of calls *)

Inductive exn :=
| KeyError (name : str)
| ValueError
| JSONDecodeError
| OSError
| HTTPError (code : N)
| URLError.

Inductive result (A : Type) :=
| Ok (a : A)
| Raise (e : exn).
Arguments Ok {A} a.
Arguments Raise {A} e.

Inductive event :=
| Printed (line : str)
| Posted (token chat_id text : str)
| SaveSeen (items : list seen_item).

(** [seen_json] is the text of the file [SEEN_PATH], [None] while the file does
    not exist. *)
Record world := World {
  seen_json : option str;
  trace : list event
}.

(** What the network does with the request of [telegram_send_message]. *)
Inductive net_outcome :=
| Delivered
| HttpError (code : N) (body : str)
| NetError.

(** What the file system does with the write of [save_seen]: it succeeds, the
    file cannot be opened, or an error interrupts the writing after [n]
    characters. *)
Inductive disk_outcome :=
| WriteOk
| OpenFails
| WriteFails (n : nat).

(** What one run of the program finds around it. *)
Record run := Run {
  environ : str -> option str;
  clock : Z;
  feed : str -> list entry;
  net : net_outcome;
  disk : disk_outcome
}.

Definition M (A : Type) : Type := world -> result A * world.

Definition ret {A} (a : A) : M A := fun w => (Ok a, w).
Definition raise {A} (e : exn) : M A := fun w => (Raise e, w).
Definition bind {A B} (m : M A) (k : A -> M B) : M B :=
  fun w =>
    match m w with
    | (Ok a, w') => k a w'
    | (Raise e, w') => (Raise e, w')
    end.
Definition log (ev : event) : M unit :=
  fun w => (Ok tt, World (seen_json w) (trace w ++ [ev])).

Notation "x <- c1 ;; c2" := (bind c1 (fun x => c2))
  (at level 100, c1 at next level, right associativity).
Notation "c1 ;; c2" := (bind c1 (fun _ => c2))
  (at level 100, right associativity).

(** [collected[:k]] *)
Definition slice_to {A} (l : list A) (k : Z) : list A :=
  if 0 <=? k then firstn (Z.to_nat k) l
  else firstn (length l - Z.to_nat (- k)) l.

(** [collected.sort(key=lambda x: x["published"], reverse=True)].
    [list.sort] is stable, with [reverse=True] too, so the result is the one
    arrangement in descending key order that keeps equal keys in their
    original order; insertion computes it. *)
Fixpoint insert_desc (x : candidate) (l : list candidate) : list candidate :=
  match l with
  | [] => [x]
  | y :: r =>
      if dt_lt (c_published x) (c_published y) then y :: insert_desc x r
      else x :: y :: r
  end.

Definition sort_desc (l : list candidate) : list candidate :=
  foldr insert_desc [] l.

(** The state of the loop over the feeds. *)
Record batch := Batch {
  batch_url_keys : gset str;
  batch_title_keys : gset str;
  collected : list candidate
}.

Section Program.
Context `{PyLib}.

(** [normalize_title(title)] *)
Definition normalize_title (title : str) : str :=
  let t := str_lower (strip title) in
  let t := sub_spaces t in
  let t := sub_brackets t in
  let t := sub_parens t in
  strip (sub_spaces t).

(** [make_keys(url, title)] *)
Definition make_keys (url title : str) : str * str :=
  let url_key :=
    if truthy url then sha (lit "url::" ++ normalize_url url) else [] in
  let title_key :=
    if truthy title then sha (lit "title::" ++ normalize_title title)
    else [] in
  (url_key, title_key).

(** [load_seen()] *)
Definition load_seen : M (list seen_item) :=
  fun w =>
    match seen_json w with
    | None => (Ok [], w)
    | Some text =>
        match json_load text with
        | None => (Raise JSONDecodeError, w)
        | Some data => (Ok (default [] data), w)
        end
    end.

(** [save_seen(items)]: [open(SEEN_PATH, "w")] empties the file, then
    [json.dump] writes the text into it. *)
Definition save_seen (d : disk_outcome) (items : list seen_item) : M unit :=
  log (SaveSeen items) ;;
  fun w =>
    match d with
    | OpenFails => (Raise OSError, w)
    | WriteFails n =>
        (Raise OSError, World (Some (firstn n (json_dump items))) (trace w))
    | WriteOk => (Ok tt, World (Some (json_dump items)) (trace w))
    end.

(** The body of the [try] of [prune_seen]: [None] when it raises. *)
Definition parse_kst (text : str) : option datetime :=
  match dtparser_parse text with
  | Some p => Some (astimezone (assume_utc p) KST)
  | None => None
  end.

(** One turn of the loop of [prune_seen]. *)
Definition prune_step (cutoff : datetime) (kept : list seen_item)
    (it : seen_item) : list seen_item :=
  if negb (truthy_opt (it_ts it)) then kept
  else
    match parse_kst (default [] (it_ts it)) with
    | Some dt => if dt_ge dt cutoff then kept ++ [it] else kept
    | None => kept
    end.

(** [prune_seen(items, now)] *)
Definition prune_seen (items : list seen_item) (now : datetime)
    : list seen_item :=
  let cutoff := dt_sub now (days KEEP_DAYS) in
  fold_left (prune_step cutoff) items [].

(** [is_korean(text)] *)
Definition is_korean (text : str) : bool :=
  if has_hangul text then true
  else
    match detect text with
    | Some lang => bool_decide (lang = lit "ko")
    | None => false
    end.

(** One turn of the loop of [parse_published]. *)
Definition parse_attr (val : option str) : option datetime :=
  if negb (truthy_opt val) then None
  else parse_kst (default [] val).

(** [parse_published(entry)] *)
Definition parse_published (e : entry) : option datetime :=
  match parse_attr (e_published e) with
  | Some dt => Some dt
  | None => parse_attr (e_updated e)
  end.

(** [telegram_send_message(token, chat_id, text)] *)
Definition telegram_send_message (n : net_outcome)
    (token chat_id text : str) : M unit :=
  log (Posted token chat_id text) ;;
  match n with
  | Delivered => ret tt
  | HttpError code body =>
      log (Printed (lit "[TELEGRAM ERROR] " ++ uint_str (N.to_uint code)
                    ++ lit " " ++ body)) ;;
      raise (HTTPError code)
  | NetError => raise URLError
  end.

(** The set comprehensions of [main]:
    [{it.get(k) for it in seen_items if it.get(k)}] *)
Definition key_set (get : seen_item -> option str)
    (items : list seen_item) : gset str :=
  list_to_set
    (omap (fun it => if truthy_opt (get it) then get it else None) items).

(** The tests [key and key in keys] of [main] *)
Definition known (key : str) (keys : gset str) : bool :=
  truthy key && bool_decide (key ∈ keys).

(** The body of the loop over the entries of a feed. *)
Definition consider (cutoff_12h : datetime)
    (seen_url_keys seen_title_keys : gset str)
    (st : batch) (e : entry) : batch :=
  let title := strip (default [] (e_title e)) in
  let url := strip (default [] (e_link e)) in
  let summary := default [] (e_summary e) in
  match parse_published e with
  | None => st
  | Some published_dt =>
    if dt_lt published_dt cutoff_12h then st
    else
      let lang_text := strip (title ++ NL ++ sub_tags summary) in
      if is_korean lang_text then st
      else
        let '(url_key, title_key) := make_keys url title in
        if known url_key (batch_url_keys st) then st
        else if known title_key (batch_title_keys st) then st
        else if known url_key seen_url_keys then st
        else if known title_key seen_title_keys then st
        else
          Batch ({[ url_key ]} ∪ batch_url_keys st)
                ({[ title_key ]} ∪ batch_title_keys st)
                (collected st
                 ++ [Candidate title url published_dt url_key title_key])
  end.

(** The loop over [QUERIES] and, inside it, over the entries of each feed. *)
Definition collect (r : run) (cutoff_12h : datetime)
    (seen_url_keys seen_title_keys : gset str) : batch :=
  fold_left
    (fun st q =>
       fold_left (consider cutoff_12h seen_url_keys seen_title_keys)
                 (feed r (google_news_rss_url q)) st)
    QUERIES (Batch ∅ ∅ []).

(** [collected.sort(...); collected = collected[:MAX_ITEMS]] *)
Definition assemble (MAX_ITEMS : Z) (accepted : list candidate)
    : list candidate :=
  slice_to (sort_desc accepted) MAX_ITEMS.

(** The lines of the digest, one per item, numbered from [i]. *)
Fixpoint digest_lines (i : nat) (items : list candidate) : list str :=
  match items with
  | [] => []
  | it :: rest =>
      (str_of_nat i ++ lit ") " ++ c_title it ++ NL
       ++ strftime (c_published it) ++ NL ++ c_url it ++ NL)
      :: digest_lines (S i) rest
  end.

Definition digest_message (items : list candidate) : str :=
  let lines :=
    (lit "🗞️ *NextBiomedical / Nexpowder / Nexsphere F* (last 12h, deduped)"
     ++ NL) :: digest_lines 1 items in
  strip (join NL lines).

Definition no_news_message : str :=
  lit "🗞️ NextBiomedical / Nexpowder / Nexsphere F" ++ NL
  ++ lit "최근 12시간 내 새 해외 뉴스가 없습니다.".

(** The dictionary appended to [seen_items] for one digest item. *)
Definition seen_of (now : datetime) (it : candidate) : seen_item :=
  SeenItem (Some (isoformat now)) (Some (c_url_key it))
           (Some (c_title_key it)) (Some (c_url it)) (Some (c_title it)).

(** [os.environ[name]] *)
Definition os_environ (r : run) (name : str) : M str :=
  match environ r name with
  | Some v => ret v
  | None => raise (KeyError name)
  end.

(** [main()] *)
Definition main (MAX_ITEMS : Z) (r : run) : M unit :=
  token <- os_environ r (lit "TELEGRAM_BOT_TOKEN") ;;
  chat_id <- os_environ r (lit "TELEGRAM_CHAT_ID") ;;
  let now := datetime_now KST (clock r) in
  let cutoff_12h := dt_sub now (hours 12) in
  loaded <- load_seen ;;
  let seen_items := prune_seen loaded now in
  let seen_url_keys := key_set it_url_key seen_items in
  let seen_title_keys := key_set it_title_key seen_items in
  let accepted :=
    collected (collect r cutoff_12h seen_url_keys seen_title_keys) in
  match accepted with
  | [] =>
      log (Printed (lit "[DEBUG] No articles found in last 12 hours.")) ;;
      telegram_send_message (net r) token chat_id no_news_message
  | _ :: _ =>
      let digest := assemble MAX_ITEMS accepted in
      telegram_send_message (net r) token chat_id (digest_message digest) ;;
      save_seen (disk r) (seen_items ++ map (seen_of now) digest)
  end.

(** The module level and the call of [main]:
    [MAX_ITEMS = int(os.environ.get("MAX_ITEMS", "20"))], where [int("20")]
    is 20. *)
Definition max_items (r : run) : option Z :=
  match environ r (lit "MAX_ITEMS") with
  | None => Some 20
  | Some text => py_int text
  end.

Definition program (r : run) : M unit :=
  match max_items r with
  | Some MAX_ITEMS => main MAX_ITEMS r
  | None => raise ValueError
  end.

End Program.

(** * Vocabulary of the properties *)

Section Specification.
Context `{PyLib}.

(** The retention rule in the words of the specification: the item has a time
    stamp, the time stamp parses, and it is at most [KEEP_DAYS] old. *)
Definition retained (now : datetime) (it : seen_item) : Prop :=
  exists ts dt,
    it_ts it = Some ts /\ ts <> [] /\ parse_kst ts = Some dt
    /\ instant now - instant dt <= days KEEP_DAYS.

#[global] Instance retained_dec now it : Decision (retained now it).
Proof.
  unfold retained.
  destruct (it_ts it) as [ts|]; [|right; intros (?&?&?&_); discriminate].
  destruct ts as [|c ts];
    [right; intros (?&?&E&N&_); injection E as <-; congruence|].
  destruct (parse_kst (c :: ts)) as [dt|] eqn:P;
    [|right; intros (?&?&E&_&Q&_); injection E as <-; congruence].
  destruct (decide (instant now - instant dt <= days KEEP_DAYS)) as [L|L].
  - left. exists (c :: ts), dt. repeat split; congruence.
  - right. intros (?&?&E&_&Q&L'). injection E as <-.
    rewrite P in Q. injection Q as <-. contradiction.
Defined.

(** What the loop body reads off an entry. *)
Definition entry_title (e : entry) : str := strip (default [] (e_title e)).
Definition entry_url (e : entry) : str := strip (default [] (e_link e)).
Definition entry_lang_text (e : entry) : str :=
  strip (entry_title e ++ NL ++ sub_tags (default [] (e_summary e))).
Definition entry_url_key (e : entry) : str :=
  fst (make_keys (entry_url e) (entry_title e)).
Definition entry_title_key (e : entry) : str :=
  snd (make_keys (entry_url e) (entry_title e)).
Definition candidate_of (e : entry) (dt : datetime) : candidate :=
  Candidate (entry_title e) (entry_url e) dt
            (entry_url_key e) (entry_title_key e).

(** The recency check lets the entry through. *)
Definition recent (cutoff : datetime) (e : entry) : bool :=
  match parse_published e with
  | Some dt => negb (dt_lt dt cutoff)
  | None => false
  end.

(** The language check lets the entry through. *)
Definition foreign (e : entry) : bool := negb (is_korean (entry_lang_text e)).

(** Neither key of the entry is matched in the given pair of key sets. *)
Definition unmatched (url_keys title_keys : gset str) (e : entry) : bool :=
  negb (known (entry_url_key e) url_keys)
  && negb (known (entry_title_key e) title_keys).

(** The entry gets through every check of the loop body. *)
Definition accepts (cutoff : datetime) (seen_url_keys seen_title_keys : gset str)
    (st : batch) (e : entry) : bool :=
  recent cutoff e && foreign e
  && unmatched (batch_url_keys st) (batch_title_keys st) e
  && unmatched seen_url_keys seen_title_keys e.

(** All the entries of a run, in the order the loops visit them. *)
Definition fetched (r : run) : list entry :=
  flat_map (fun q => feed r (google_news_rss_url q)) QUERIES.

(** The non-empty keys among those of a list of candidates. *)
Definition nonempty_keys (key : candidate -> str) (l : list candidate)
    : list str :=
  List.filter truthy (map key l).

End Specification.

(** Descending order of the publication instants. *)
Definition newer_eq (x y : candidate) : Prop :=
  instant (c_published y) <= instant (c_published x).

(** The time stamp of a candidate is the instant [t]. *)
Definition published_at (t : Z) (c : candidate) : bool :=
  instant (c_published c) =? t.

(** A run starts from the content of [seen.json] and an empty trace. *)
Definition start (file : option str) : world := World file [].

Definition saves (ev : event) : bool :=
  match ev with SaveSeen _ => true | _ => false end.

Section RunVocabulary.
Context `{PyLib}.

(** What the loop maintains about [collected] and the batch key sets. *)
Definition batch_ok (seen_url_keys seen_title_keys : gset str) (st : batch)
    : Prop :=
  (forall c, In c (collected st) ->
     c_url_key c ∈ batch_url_keys st /\ c_title_key c ∈ batch_title_keys st)
  /\ NoDup (nonempty_keys c_url_key (collected st))
  /\ NoDup (nonempty_keys c_title_key (collected st))
  /\ (forall c, In c (collected st) ->
        known (c_url_key c) seen_url_keys = false
        /\ known (c_title_key c) seen_title_keys = false).

(** The values [main] computes on its way, given the items it loaded. *)
Definition run_now (r : run) : datetime := datetime_now KST (clock r).

Definition run_pruned (r : run) (loaded : list seen_item) : list seen_item :=
  prune_seen loaded (run_now r).

Definition run_accepted (r : run) (loaded : list seen_item) : list candidate :=
  collected
    (collect r (dt_sub (run_now r) (hours 12))
       (key_set it_url_key (run_pruned r loaded))
       (key_set it_title_key (run_pruned r loaded))).

Definition run_digest (MAX_ITEMS : Z) (r : run) (loaded : list seen_item)
    : list candidate :=
  assemble MAX_ITEMS (run_accepted r loaded).

Definition run_appended (MAX_ITEMS : Z) (r : run) (loaded : list seen_item)
    : list seen_item :=
  map (seen_of (run_now r)) (run_digest MAX_ITEMS r loaded).

End RunVocabulary.

(** * A concrete library and concrete runs

    [Demo.lib] gives each library function on the texts the examples use, with
    the values the Python libraries give there: lower case of ASCII letters,
    decimal integers, ISO-8601 time stamps, the JSON text of a list of items.
    [json_load] reads back the documents listed in [Demo.documents] and takes
    any other text as malformed. *)

Module Demo.

#[local] Open Scope N_scope.

Definition lower (s : str) : str :=
  map (fun c => if (65 <=? c) && (c <=? 90) then c + 32 else c) s.

Definition digit (c : N) : option Z :=
  if (48 <=? c) && (c <=? 57) then Some (Z.of_N (c - 48)) else None.

Fixpoint digits (acc : Z) (s : str) : option Z :=
  match s with
  | [] => Some acc
  | c :: r =>
      match digit c with
      | Some d => digits (10 * acc + d)%Z r
      | None => None
      end
  end.

Definition int (s : str) : option Z :=
  match s with [] => None | _ => digits 0%Z s end.

Definition pad2 (n : Z) : str :=
  [48 + Z.to_N (n / 10); 48 + Z.to_N (n mod 10)].

#[local] Close Scope N_scope.
#[local] Open Scope Z_scope.

(** Days from 1970-01-01 to a date of the Gregorian calendar, and back. *)
Definition days_from_civil (y m d : Z) : Z :=
  let y' := if m <=? 2 then y - 1 else y in
  let era := y' / 400 in
  let yoe := y' - era * 400 in
  let mp := if 2 <? m then m - 3 else m + 9 in
  let doy := (153 * mp + 2) / 5 + d - 1 in
  let doe := yoe * 365 + yoe / 4 - yoe / 100 + doy in
  era * 146097 + doe - 719468.

Definition civil_from_days (z : Z) : Z * Z * Z :=
  let z := z + 719468 in
  let era := z / 146097 in
  let doe := z - era * 146097 in
  let yoe := (doe - doe / 1460 + doe / 36524 - doe / 146096) / 365 in
  let doy := doe - (365 * yoe + yoe / 4 - yoe / 100) in
  let mp := (5 * doy + 2) / 153 in
  let d := doy - (153 * mp + 2) / 5 + 1 in
  let m := if mp <? 10 then mp + 3 else mp - 9 in
  let y := yoe + era * 400 in
  (if m <=? 2 then y + 1 else y, m, d).

(** The wall-clock reading, in microseconds since 1970-01-01T00:00:00, of
    [y-m-d hh:mm:ss]. *)
Definition civil (y m d hh mm ss : Z) : Z :=
  (((days_from_civil y m d * 24 + hh) * 60 + mm) * 60 + ss) * 1000000.

Definition num2 (a b : N) : option Z :=
  match digit a, digit b with
  | Some x, Some y => Some (10 * x + y)
  | _, _ => None
  end.

Definition num4 (a b c d : N) : option Z :=
  match num2 a b, num2 c d with
  | Some x, Some y => Some (100 * x + y)
  | _, _ => None
  end.

Definition iso_offset (rest : str) : option (option Z) :=
  match rest with
  | [] => Some None
  | [sign; a; b; 58%N; c; d] =>
      match num2 a b, num2 c d with
      | Some hh, Some mm =>
          let off := (hh * 60 + mm) * 60 * 1000000 in
          if N.eqb sign 43 then Some (Some off)
          else if N.eqb sign 45 then Some (Some (- off))
          else None
      | _, _ => None
      end
  | _ => None
  end.

(** [dateutil.parser.parse] on [YYYY-MM-DDTHH:MM:SS], with or without an offset
    [+HH:MM]; any other text is taken as unparseable. *)
Definition iso_parse (s : str) : option parsed_time :=
  match s with
  | y1 :: y2 :: y3 :: y4 :: 45%N :: m1 :: m2 :: 45%N :: d1 :: d2 :: 84%N
    :: h1 :: h2 :: 58%N :: i1 :: i2 :: 58%N :: s1 :: s2 :: rest =>
      match num4 y1 y2 y3 y4, num2 m1 m2, num2 d1 d2,
            num2 h1 h2, num2 i1 i2, num2 s1 s2, iso_offset rest with
      | Some y, Some m, Some d, Some hh, Some mm, Some ss, Some off =>
          Some (ParsedTime (civil y m d hh mm ss) off)
      | _, _, _, _, _, _, _ => None
      end
  | _ => None
  end.

Definition second_of_day (d : datetime) : Z :=
  (wall d / 1000000) mod 86400.

Definition date_of (d : datetime) : Z * Z * Z :=
  civil_from_days (wall d / 1000000 / 86400).

(** [isoformat] of a datetime on a whole second whose offset is a whole
    number of minutes. *)
Definition iso_format (d : datetime) : str :=
  let '(y, m, dd) := date_of d in
  let s := second_of_day d in
  let off := Z.abs (utcoffset d) / 60000000 in
  pad2 (y / 100) ++ pad2 (y mod 100) ++ lit "-" ++ pad2 m ++ lit "-"
  ++ pad2 dd ++ lit "T" ++ pad2 (s / 3600) ++ lit ":"
  ++ pad2 ((s / 60) mod 60) ++ lit ":" ++ pad2 (s mod 60)
  ++ (if utcoffset d <? 0 then lit "-" else lit "+")
  ++ pad2 (off / 60) ++ lit ":" ++ pad2 (off mod 60).

(** [strftime("%m-%d %H:%M KST")] *)
Definition format_kst (d : datetime) : str :=
  let '(y, m, dd) := date_of d in
  let s := second_of_day d in
  pad2 m ++ lit "-" ++ pad2 dd ++ lit " " ++ pad2 (s / 3600) ++ lit ":"
  ++ pad2 ((s / 60) mod 60) ++ lit " KST".

#[local] Close Scope Z_scope.
#[local] Open Scope N_scope.

(** The text [json.dump] writes for a string, [ensure_ascii=False]. *)
Definition escape (c : N) : str :=
  if c =? 34 then [92; 34]
  else if c =? 92 then [92; 92]
  else if c =? 10 then [92; 110]
  else if c =? 13 then [92; 114]
  else if c =? 9 then [92; 116]
  else if c =? 8 then [92; 98]
  else if c =? 12 then [92; 102]
  else if c <? 32 then
    [92; 117; 48; 48; Sha256.hex_digit (c / 16); Sha256.hex_digit (c mod 16)]
  else [c].

Definition json_string (s : str) : str :=
  DQUOTE ++ flat_map escape s ++ DQUOTE.

Definition json_field (name : string) (v : option str) : list str :=
  match v with
  | Some s => [lit "      " ++ json_string (lit name) ++ lit ": " ++ json_string s]
  | None => []
  end.

Definition json_item (it : seen_item) : str :=
  let fields :=
    json_field "ts" (it_ts it) ++ json_field "url_key" (it_url_key it)
    ++ json_field "title_key" (it_title_key it)
    ++ json_field "url" (it_url it) ++ json_field "title" (it_title it) in
  match fields with
  | [] => lit "    {}"
  | _ => lit "    {" ++ NL ++ join (lit "," ++ NL) fields ++ NL ++ lit "    }"
  end.

(** The text of [json.dump({"items": items}, f, ensure_ascii=False, indent=2)]
    for items whose keys stand in the order the program writes them. *)
Definition dump (items : list seen_item) : str :=
  match items with
  | [] => lit "{" ++ NL ++ lit "  " ++ json_string (lit "items") ++ lit ": []"
          ++ NL ++ lit "}"
  | _ => lit "{" ++ NL ++ lit "  " ++ json_string (lit "items") ++ lit ": ["
         ++ NL ++ join (lit "," ++ NL) (map json_item items) ++ NL
         ++ lit "  ]" ++ NL ++ lit "}"
  end.

#[local] Close Scope N_scope.
#[local] Open Scope Z_scope.

(** [json.load] followed by [.get("items", [])], on the documents [docs]. *)
Definition load_among (docs : list (list seen_item)) (text : str)
    : option (option (list seen_item)) :=
  match List.find (fun d => bool_decide (dump d = text)) docs with
  | Some d => Some (Some d)
  | None => None
  end.

(** The items of the examples: one seen 61 days before the run, one seen the
    day before. *)
Definition old_item : seen_item :=
  SeenItem (Some (lit "2024-03-01T09:00:00+09:00"))
           (Some (sha (lit "url::https://example.com/old")))
           (Some (sha (lit "title::an old story")))
           (Some (lit "https://example.com/old"))
           (Some (lit "An old story")).

Definition yesterday_item : seen_item :=
  SeenItem (Some (lit "2024-04-30T09:00:00+09:00"))
           (Some (sha (lit "url::https://example.com/y")))
           (Some (sha (lit "title::yesterday")))
           (Some (lit "https://example.com/y"))
           (Some (lit "Yesterday")).

Definition documents : list (list seen_item) :=
  [ []; [old_item]; [old_item; yesterday_item] ].

#[global] Instance lib : PyLib := {|
  str_lower := lower;
  py_int := int;
  dtparser_parse := iso_parse;
  detect := fun _ => Some (lit "en");
  isoformat := iso_format;
  strftime := format_kst;
  json_load := load_among documents;
  json_dump := dump
|}.

(** The run of the examples starts at 2024-05-01T12:00:00+09:00; its first
    query brings the given entries, the others bring none. *)
Definition noon : Z := civil 2024 5 1 3 0 0.

Definition env (name : str) : option str :=
  if bool_decide (name = lit "TELEGRAM_BOT_TOKEN") then Some (lit "123:abc")
  else if bool_decide (name = lit "TELEGRAM_CHAT_ID") then Some (lit "42")
  else None.

Definition first_query_brings (entries : list entry) (url : str) : list entry :=
  match QUERIES with
  | q :: _ => if bool_decide (url = google_news_rss_url q) then entries else []
  | [] => []
  end.

Definition run_with (entries : list entry) (n : net_outcome)
    (d : disk_outcome) : run :=
  Run env noon (first_query_brings entries) n d.

Definition article (title link published : string) : entry :=
  Entry (Some (lit title)) (Some (lit link)) (Some (lit "<p>News</p>"))
        (Some (lit published)) None.

(** Published exactly twelve hours before the run. *)
Definition at_cutoff : entry :=
  article "Nexpowder cleared in Europe" "https://example.com/a"
          "2024-05-01T00:00:00+09:00".




(** Three entries published one, three and two hours before the run. *)
Definition hour1 : entry :=
  article "One hour ago" "https://example.com/1" "2024-05-01T11:00:00+09:00".
Definition hour3 : entry :=
  article "Three hours ago" "https://example.com/3" "2024-05-01T09:00:00+09:00".
Definition hour2 : entry :=
  article "Two hours ago" "https://example.com/2" "2024-05-01T10:00:00+09:00".

(** The runs of the examples. *)
Definition quiet_run : run := run_with [] Delivered WriteOk.
Definition cutoff_run : run := run_with [at_cutoff] Delivered WriteOk.
Definition three_run : run := run_with [hour1; hour3; hour2] Delivered WriteOk.
Definition failing_run : run :=
  run_with [hour1] (HttpError 400 (lit "Bad Request")) WriteOk.

(** Twelve hours before the run, and the time stamp of [at_cutoff]. *)
Definition cutoff : datetime := dt_sub (run_now quiet_run) (hours 12).
Definition midnight : datetime := Datetime (civil 2024 5 1 0 0 0) KST.

(** A title and two URLs whose normal forms are empty. *)
Definition tag_only_title : str := lit "[Reuters]".
Definition fragment_only_url : str := lit "#top".
Definition blank_url : str := lit " ".

End Demo.

(** * Properties *)

(** ** Fingerprints *)

Lemma hexdigest_length (msg : list N) : length (Sha256.hexdigest msg) = 64%nat.
Proof. reflexivity. Qed.

Lemma sha_nonempty (s : str) : sha s <> [].
Proof.
  intros E. pose proof (hexdigest_length (utf8_encode s)) as L.
  unfold sha in E. rewrite E in L. discriminate L.
Qed.

Lemma truthy_true (s : str) : truthy s = true <-> s <> [].
Proof. destruct s; simpl; split; congruence. Qed.

Lemma truthy_false (s : str) : truthy s = false <-> s = [].
Proof. destruct s; simpl; split; congruence. Qed.

Lemma normalize_url_nil : normalize_url [] = [].
Proof. reflexivity. Qed.

Section Fingerprint.
Context `{PyLib}.

Lemma url_key_eq (url title : str) :
  fst (make_keys url title)
  = if truthy url then sha (lit "url::" ++ normalize_url url) else [].
Proof. reflexivity. Qed.

Lemma title_key_eq (url title : str) :
  snd (make_keys url title)
  = if truthy title then sha (lit "title::" ++ normalize_title title)
    else [].
Proof. reflexivity. Qed.

(** C7, as amended: each key is empty exactly when the raw field handed to
    [make_keys] is empty; a field that is not empty is hashed, whatever its
    normal form, so a non-empty field whose normal form is empty gets the
    hash of the bare tag. *)
Theorem make_keys_empty_iff_raw_empty (url title : str) :
  (fst (make_keys url title) = [] <-> url = [])
  /\ (snd (make_keys url title) = [] <-> title = [])
  /\ (url <> [] -> normalize_url url = [] ->
      fst (make_keys url title) = sha (lit "url::"))
  /\ (title <> [] -> normalize_title title = [] ->
      snd (make_keys url title) = sha (lit "title::")).
Proof.
  rewrite url_key_eq, title_key_eq. repeat split.
  - destruct url; simpl; [reflexivity|]. intros E. now apply sha_nonempty in E.
  - intros ->. reflexivity.
  - destruct title; simpl; [reflexivity|].
    intros E. now apply sha_nonempty in E.
  - intros ->. reflexivity.
  - intros Hne Hn. apply truthy_true in Hne. rewrite Hne, Hn.
    now rewrite app_nil_r.
  - intros Hne Hn. apply truthy_true in Hne. rewrite Hne, Hn.
    now rewrite app_nil_r.
Qed.

End Fingerprint.

(** ** Pruning *)

Section Pruning.
Context `{PyLib}.




End Pruning.

(** ** The candidate filter *)



Lemma known_false (k : str) (keys : gset str) :
  known k keys = false <-> k = [] \/ k ∉ keys.
Proof.
  unfold known. rewrite andb_false_iff, truthy_false, bool_decide_eq_false.
  reflexivity.
Qed.


Lemma key_set_elem (get : seen_item -> option str) (items : list seen_item)
    (k : str) :
  k ∈ key_set get items <-> k <> [] /\ exists it, In it items /\ get it = Some k.
Proof.
  unfold key_set. rewrite elem_of_list_to_set, list_elem_of_omap. split.
  - intros (it & Hin & E). destruct (get it) as [s|] eqn:G; simpl in E.
    + destruct (truthy s) eqn:T; [|discriminate]. injection E as ->.
      split; [now apply truthy_true|]. exists it. split; [|exact G].
      now apply list_elem_of_In.
    + discriminate.
  - intros (Hne & it & Hin & G). exists it.
    split; [now apply list_elem_of_In|]. rewrite G. simpl.
    apply truthy_true in Hne. now rewrite Hne.
Qed.


Lemma key_set_app (get : seen_item -> option str) (l1 l2 : list seen_item) :
  key_set get (l1 ++ l2) = key_set get l1 ∪ key_set get l2.
Proof.
  apply set_eq. intros k. rewrite elem_of_union, !key_set_elem. split.
  - intros (Hne & it & Hin & G). apply in_app_iff in Hin.
    destruct Hin as [Hin|Hin]; [left|right]; (split; [exact Hne|now exists it]).
  - intros [(Hne & it & Hin & G)|(Hne & it & Hin & G)];
      (split; [exact Hne|]); exists it; (split; [|exact G]);
      apply in_app_iff; [now left | now right].
Qed.

Section Filter.
Context `{PyLib}.
Variables (seen_url_keys seen_title_keys : gset str).

#[local] Abbreviation consider' c := (consider c seen_url_keys seen_title_keys).
#[local] Abbreviation accepts' c := (accepts c seen_url_keys seen_title_keys).

Lemma consider_reject (cutoff : datetime) (st : batch) (e : entry) :
  accepts' cutoff st e = false -> consider' cutoff st e = st.
Proof.
  unfold accepts, recent, foreign, unmatched, consider,
    entry_url_key, entry_title_key, entry_lang_text, entry_title, entry_url.
  destruct (parse_published e) as [dt|]; [|reflexivity].
  destruct (dt_lt dt cutoff); [reflexivity|].
  destruct (is_korean _); [reflexivity|].
  destruct (make_keys _ _) as [uk tk]. simpl.
  destruct (known uk (batch_url_keys st)); [reflexivity|].
  destruct (known tk (batch_title_keys st)); [reflexivity|].
  destruct (known uk seen_url_keys); [reflexivity|].
  destruct (known tk seen_title_keys); [reflexivity|].
  discriminate.
Qed.

Lemma consider_accept (cutoff : datetime) (st : batch) (e : entry) :
  accepts' cutoff st e = true ->
  exists dt,
    parse_published e = Some dt
    /\ consider' cutoff st e
       = Batch ({[ entry_url_key e ]} ∪ batch_url_keys st)
               ({[ entry_title_key e ]} ∪ batch_title_keys st)
               (collected st ++ [candidate_of e dt]).
Proof.
  unfold accepts, recent, foreign, unmatched, consider, candidate_of,
    entry_url_key, entry_title_key, entry_lang_text, entry_title, entry_url.
  destruct (parse_published e) as [dt|]; [|discriminate].
  destruct (dt_lt dt cutoff); [discriminate|].
  destruct (is_korean _); [discriminate|].
  destruct (make_keys _ _) as [uk tk]. simpl.
  destruct (known uk (batch_url_keys st)); [discriminate|].
  destruct (known tk (batch_title_keys st)); [discriminate|].
  destruct (known uk seen_url_keys); [discriminate|].
  destruct (known tk seen_title_keys); [discriminate|].
  intros _. now exists dt.
Qed.

Lemma collect_fetched (cutoff : datetime) (r : run) :
  collect r cutoff seen_url_keys seen_title_keys
  = fold_left (consider' cutoff) (fetched r) (Batch ∅ ∅ []).
Proof.
  unfold collect, fetched. generalize (Batch ∅ ∅ []).
  induction QUERIES as [|q qs IH]; intros st; simpl; [reflexivity|].
  now rewrite fold_left_app, IH.
Qed.





(** C2, as amended: the recency check turns an entry down exactly when its
    time stamp lies strictly before [now - 12h]; an entry published exactly at
    the cutoff passes it, and is collected when the later checks pass too. *)
Theorem recency_cutoff_is_kept (now : datetime) (st : batch) (e : entry)
    (dt : datetime) :
  parse_published e = Some dt ->
  (recent (dt_sub now (hours 12)) e = true
   <-> instant now - hours 12 <= instant dt)
  /\ (instant dt < instant now - hours 12 ->
      consider (dt_sub now (hours 12)) seen_url_keys seen_title_keys st e = st)
  /\ (instant dt = instant now - hours 12 ->
      foreign e = true ->
      unmatched (batch_url_keys st) (batch_title_keys st) e = true ->
      unmatched seen_url_keys seen_title_keys e = true ->
      collected
        (consider (dt_sub now (hours 12)) seen_url_keys seen_title_keys st e)
      = collected st ++ [candidate_of e dt]).
Proof.
  intros P.
  assert (R : recent (dt_sub now (hours 12)) e = true
              <-> instant now - hours 12 <= instant dt).
  { unfold recent. rewrite P, negb_true_iff. unfold dt_lt, dt_sub, instant.
    simpl. rewrite Z.ltb_ge. lia. }
  split; [exact R|]. split.
  - intros L. apply consider_reject. unfold accepts.
    replace (recent _ e) with false; [reflexivity|].
    symmetry. apply not_true_is_false. intros Rc. apply R in Rc. lia.
  - intros E F U1 U2.
    destruct (consider_accept (dt_sub now (hours 12)) st e) as (dt' & P' & C).
    + unfold accepts. rewrite F, U1, U2.
      replace (recent _ e) with true; [reflexivity|].
      symmetry. apply R. lia.
    + rewrite C. simpl. congruence.
Qed.

End Filter.

Section EmptyKeys.
Context `{PyLib}.




End EmptyKeys.

(** ** The invariant of the loop *)

Lemma nonempty_keys_app (key : candidate -> str) (l1 l2 : list candidate) :
  nonempty_keys key (l1 ++ l2) = nonempty_keys key l1 ++ nonempty_keys key l2.
Proof. unfold nonempty_keys. now rewrite map_app, List.filter_app. Qed.

Lemma nonempty_keys_In (key : candidate -> str) (l : list candidate) (k : str) :
  In k (nonempty_keys key l) <-> k <> [] /\ exists c, In c l /\ key c = k.
Proof.
  unfold nonempty_keys. rewrite List.filter_In, in_map_iff, truthy_true.
  split.
  - intros [(c & E & Hin) Hne]. split; [exact Hne|]. now exists c.
  - intros [Hne (c & Hin & E)]. split; [now exists c | exact Hne].
Qed.

Lemma nonempty_keys_perm (key : candidate -> str) (l1 l2 : list candidate) :
  Permutation l1 l2 ->
  Permutation (nonempty_keys key l1) (nonempty_keys key l2).
Proof.
  intros P. unfold nonempty_keys.
  induction P as [|x l l' P IH|x y l|l l' l'' P1 IH1 P2 IH2]; simpl.
  - constructor.
  - destruct (truthy (key x)); [now constructor | exact IH].
  - destruct (truthy (key y)), (truthy (key x));
      try reflexivity. apply perm_swap.
  - now transitivity (List.filter truthy (map key l')).
Qed.

Section LoopInvariant.
Context `{PyLib}.
Variables (cutoff : datetime) (seen_url_keys seen_title_keys : gset str).

Lemma batch_ok_start : batch_ok seen_url_keys seen_title_keys (Batch ∅ ∅ []).
Proof.
  split; [intros c []|]. split; [apply NoDup_nil_2|].
  split; [apply NoDup_nil_2|]. intros c [].
Qed.

Lemma fresh_key (key : candidate -> str) (keys : gset str)
    (l : list candidate) (k : str) :
  (forall c, In c l -> key c ∈ keys) ->
  known k keys = false ->
  ~ In k (nonempty_keys key l).
Proof.
  intros Hall Hk Hin. apply nonempty_keys_In in Hin.
  destruct Hin as (Hne & c & Hc & E). apply known_false in Hk.
  destruct Hk as [Hk|Hk]; [contradiction|]. apply Hk. rewrite <- E. now apply Hall.
Qed.

Lemma NoDup_snoc_keys (key : candidate -> str) (l : list candidate)
    (c : candidate) :
  NoDup (nonempty_keys key l) ->
  ~ In (key c) (nonempty_keys key l) ->
  NoDup (nonempty_keys key (l ++ [c])).
Proof.
  intros N Hout. rewrite nonempty_keys_app. unfold nonempty_keys at 2. simpl.
  destruct (truthy (key c)).
  - apply NoDup_app. split; [exact N|]. split.
    + intros x Hx Hin. apply list_elem_of_singleton in Hin. subst x.
      apply Hout. now apply list_elem_of_In.
    + apply NoDup_singleton.
  - now rewrite app_nil_r.
Qed.

Lemma batch_ok_step (st : batch) (e : entry) :
  batch_ok seen_url_keys seen_title_keys st ->
  batch_ok seen_url_keys seen_title_keys
           (consider cutoff seen_url_keys seen_title_keys st e).
Proof.
  intros (I1 & I2 & I3 & I4).
  destruct (accepts cutoff seen_url_keys seen_title_keys st e) eqn:A.
  - destruct (consider_accept _ _ _ _ _ A) as (dt & _ & ->).
    unfold accepts, unmatched in A.
    rewrite !andb_true_iff, !negb_true_iff in A.
    destruct A as [[[_ _] [Bu Bt]] [Su St]].
    split; [|split; [|split]]; simpl.
    + intros c Hc. apply in_app_iff in Hc. destruct Hc as [Hc|[<-|[]]].
      * split; apply elem_of_union_r; now apply I1.
      * split; apply elem_of_union_l; now apply elem_of_singleton.
    + apply NoDup_snoc_keys; [exact I2|]. simpl.
      apply (fresh_key _ (batch_url_keys st)); [|exact Bu].
      intros c Hc. now apply I1.
    + apply NoDup_snoc_keys; [exact I3|]. simpl.
      apply (fresh_key _ (batch_title_keys st)); [|exact Bt].
      intros c Hc. now apply I1.
    + intros c Hc. apply in_app_iff in Hc. destruct Hc as [Hc|[<-|[]]];
        [now apply I4 | simpl; split; assumption].
  - rewrite consider_reject by exact A. exact (conj I1 (conj I2 (conj I3 I4))).
Qed.

Lemma batch_ok_loop (l : list entry) (st : batch) :
  batch_ok seen_url_keys seen_title_keys st ->
  batch_ok seen_url_keys seen_title_keys
           (fold_left (consider cutoff seen_url_keys seen_title_keys) l st).
Proof.
  revert st. induction l as [|e l IH]; intros st I; simpl; [exact I|].
  now apply IH, batch_ok_step.
Qed.

Lemma collect_ok (r : run) :
  batch_ok seen_url_keys seen_title_keys
           (collect r cutoff seen_url_keys seen_title_keys).
Proof. rewrite collect_fetched. apply batch_ok_loop, batch_ok_start. Qed.

End LoopInvariant.

(** ** The digest *)

Lemma insert_desc_perm (x : candidate) (l : list candidate) :
  Permutation (insert_desc x l) (x :: l).
Proof.
  induction l as [|y r IH]; simpl; [reflexivity|].
  destruct (dt_lt (c_published x) (c_published y)); [|reflexivity].
  rewrite IH. apply perm_swap.
Qed.

Lemma sort_desc_perm (l : list candidate) : Permutation (sort_desc l) l.
Proof.
  induction l as [|x l IH]; simpl; [reflexivity|].
  rewrite insert_desc_perm. now constructor.
Qed.

Lemma insert_desc_sorted (x : candidate) (l : list candidate) :
  StronglySorted newer_eq l -> StronglySorted newer_eq (insert_desc x l).
Proof.
  induction l as [|y r IH]; intros S; simpl.
  - constructor; constructor.
  - apply StronglySorted_inv in S. destruct S as [Sr Fy].
    unfold dt_lt. destruct (Z.ltb_spec (instant (c_published x))
                                       (instant (c_published y))) as [L|L].
    + constructor; [now apply IH|].
      rewrite insert_desc_perm. constructor; [unfold newer_eq; lia | exact Fy].
    + constructor; [now constructor|].
      constructor; [exact L|].
      eapply Forall_impl; [exact Fy|]. unfold newer_eq. intros z Hz. lia.
Qed.

Lemma sort_desc_sorted (l : list candidate) :
  StronglySorted newer_eq (sort_desc l).
Proof.
  induction l as [|x l IH]; simpl; [constructor|].
  now apply insert_desc_sorted.
Qed.

Lemma insert_desc_stable (t : Z) (x : candidate) (l : list candidate) :
  List.filter (published_at t) (insert_desc x l)
  = List.filter (published_at t) (x :: l).
Proof.
  induction l as [|y r IH]; [reflexivity|].
  cbn [insert_desc]. unfold dt_lt.
  destruct (Z.ltb_spec (instant (c_published x)) (instant (c_published y)))
    as [L|L]; [|reflexivity].
  cbn [List.filter] in *. rewrite IH. unfold published_at.
  destruct (Z.eqb_spec (instant (c_published x)) t) as [Ex|Ex],
           (Z.eqb_spec (instant (c_published y)) t) as [Ey|Ey];
    try reflexivity. lia.
Qed.

Lemma sort_desc_stable (t : Z) (l : list candidate) :
  List.filter (published_at t) (sort_desc l) = List.filter (published_at t) l.
Proof.
  induction l as [|x l IH]; [reflexivity|].
  cbn [sort_desc foldr]. fold (sort_desc l).
  rewrite insert_desc_stable. cbn [List.filter]. now rewrite IH.
Qed.

Lemma skipn_In {A} (n : nat) (l : list A) (y : A) :
  In y (skipn n l) -> In y l.
Proof.
  revert l. induction n as [|n IH]; intros l Hy; [exact Hy|].
  destruct l as [|z l]; [destruct Hy|]. right. now apply IH.
Qed.

Lemma sorted_prefix_newer (l : list candidate) (n : nat) (x y : candidate) :
  StronglySorted newer_eq l ->
  In x (firstn n l) -> In y (skipn n l) -> newer_eq x y.
Proof.
  revert n. induction l as [|z l IH]; intros n S Hx Hy.
  - destruct n; destruct Hx.
  - apply StronglySorted_inv in S. destruct S as [S F].
    destruct n as [|n]; [destruct Hx|]. simpl in Hx, Hy.
    destruct Hx as [<-|Hx].
    + rewrite List.Forall_forall in F. apply F.
      now apply (skipn_In n).
    + now apply (IH n).
Qed.

Lemma slice_to_nonneg {A} (l : list A) (k : Z) :
  0 <= k -> slice_to l k = firstn (Z.to_nat k) l.
Proof.
  intros Hk. unfold slice_to.
  destruct (Z.leb_spec 0 k); [reflexivity | lia].
Qed.

Section Digest.
Context `{PyLib}.

(** C9: with a maximum that is not negative, the digest is the first
    [MAX_ITEMS] items of the accepted ones arranged by publication time, most
    recent first, items of equal time keeping the order in which they were
    fetched: the arrangement is a permutation, it is in descending order, and
    for each instant it lists the items of that instant as they stood. The
    digest has at most [MAX_ITEMS] items, and every item in it is at least as
    recent as every item left out. The maximum is 20 when the environment
    names none. *)
Theorem assemble_sorted_stable_truncated (MAX_ITEMS : Z)
    (accepted : list candidate) :
  0 <= MAX_ITEMS ->
  assemble MAX_ITEMS accepted = firstn (Z.to_nat MAX_ITEMS) (sort_desc accepted)
  /\ Permutation (sort_desc accepted) accepted
  /\ StronglySorted newer_eq (sort_desc accepted)
  /\ (forall t, List.filter (published_at t) (sort_desc accepted)
                = List.filter (published_at t) accepted)
  /\ length (assemble MAX_ITEMS accepted)
     = Nat.min (Z.to_nat MAX_ITEMS) (length accepted)
  /\ (forall x y,
        In x (assemble MAX_ITEMS accepted) ->
        In y (skipn (Z.to_nat MAX_ITEMS) (sort_desc accepted)) ->
        newer_eq x y)
  /\ (forall r, environ r (lit "MAX_ITEMS") = None -> max_items r = Some 20).
Proof.
  intros Hk. unfold assemble. rewrite slice_to_nonneg by exact Hk.
  split; [reflexivity|]. split; [apply sort_desc_perm|].
  split; [apply sort_desc_sorted|]. split; [intros t; apply sort_desc_stable|].
  split.
  - rewrite length_firstn. now rewrite (Permutation_length (sort_desc_perm accepted)).
  - split.
    + intros x y. apply sorted_prefix_newer, sort_desc_sorted.
    + intros r E. unfold max_items. now rewrite E.
Qed.

End Digest.

(** ** Persistence *)

Section Persistence.
Context `{PyLib}.

(** C8, as amended: [save_seen] overwrites [seen.json] in place. When the
    write succeeds the file holds the text of the new items, whatever it held
    before. When an error interrupts the writing, the file holds the part of
    the new text written so far and nothing of its former content: the
    replacement is not atomic. Only when the file cannot be opened does its
    former content stay. *)
Theorem save_seen_overwrites_in_place (d : disk_outcome)
    (items : list seen_item) (w : world) :
  trace (snd (save_seen d items w)) = trace w ++ [SaveSeen items]
  /\ (d = WriteOk ->
      fst (save_seen d items w) = Ok tt
      /\ seen_json (snd (save_seen d items w)) = Some (json_dump items))
  /\ (forall n, d = WriteFails n ->
      fst (save_seen d items w) = Raise OSError
      /\ seen_json (snd (save_seen d items w))
         = Some (firstn n (json_dump items)))
  /\ (d = OpenFails ->
      fst (save_seen d items w) = Raise OSError
      /\ seen_json (snd (save_seen d items w)) = seen_json w).
Proof.
  split; [now destruct d|].
  split; [intros ->; now split|]. split; [intros n ->; now split|].
  intros ->; now split.
Qed.

End Persistence.

(** ** Runs of [main] *)

Section Runs.
Context `{PyLib}.

Lemma load_seen_world (w : world) : snd (load_seen w) = w.
Proof.
  unfold load_seen. destruct (seen_json w) as [text|]; [|reflexivity].
  now destruct (json_load text).
Qed.

Lemma save_seen_trace (d : disk_outcome) (items : list seen_item) (w : world) :
  trace (snd (save_seen d items w)) = trace w ++ [SaveSeen items]
  /\ (fst (save_seen d items w) = Ok tt ->
      seen_json (snd (save_seen d items w)) = Some (json_dump items)).
Proof. destruct d; (split; [reflexivity|]); simpl; congruence. Qed.

(** The ways [telegram_send_message] ends. *)
Lemma send_delivered (token chat_id text : str) (w : world) :
  telegram_send_message Delivered token chat_id text w
  = (Ok tt, World (seen_json w) (trace w ++ [Posted token chat_id text])).
Proof. reflexivity. Qed.

Lemma send_raises (n : net_outcome) (token chat_id text : str) (w : world) :
  n <> Delivered ->
  exists e evs,
    telegram_send_message n token chat_id text w
    = (Raise e, World (seen_json w) (trace w ++ evs))
    /\ forall items, ~ In (SaveSeen items) evs.
Proof.
  intros Hn. destruct n as [|code body|]; [now destruct Hn| |].
  - eexists _, [_; _]. split.
    + unfold telegram_send_message, bind, log, raise. simpl.
      now rewrite <- app_assoc.
    + intros items [E|[E|[]]]; discriminate E.
  - eexists _, [_]. split; [reflexivity|].
    intros items [E|[]]; discriminate E.
Qed.

(** [main], one case after the other. *)
Lemma main_no_token (MAX_ITEMS : Z) (r : run) (w : world) :
  environ r (lit "TELEGRAM_BOT_TOKEN") = None ->
  main MAX_ITEMS r w = (Raise (KeyError (lit "TELEGRAM_BOT_TOKEN")), w).
Proof. intros E. unfold main, bind, os_environ. now rewrite E. Qed.

Lemma main_no_chat_id (MAX_ITEMS : Z) (r : run) (w : world) (token : str) :
  environ r (lit "TELEGRAM_BOT_TOKEN") = Some token ->
  environ r (lit "TELEGRAM_CHAT_ID") = None ->
  main MAX_ITEMS r w = (Raise (KeyError (lit "TELEGRAM_CHAT_ID")), w).
Proof. intros E1 E2. unfold main, bind, os_environ. now rewrite E1, E2. Qed.

Lemma main_load_raises (MAX_ITEMS : Z) (r : run) (w : world)
    (token chat_id : str) (e : exn) :
  environ r (lit "TELEGRAM_BOT_TOKEN") = Some token ->
  environ r (lit "TELEGRAM_CHAT_ID") = Some chat_id ->
  fst (load_seen w) = Raise e ->
  main MAX_ITEMS r w = (Raise e, w).
Proof.
  intros E1 E2 L. unfold main, bind, os_environ. rewrite E1, E2. simpl.
  pose proof (load_seen_world w) as W.
  destruct (load_seen w) as [[loaded|e'] w']; simpl in *; congruence.
Qed.

Lemma main_nothing_new (MAX_ITEMS : Z) (r : run) (w : world)
    (token chat_id : str) (loaded : list seen_item) :
  environ r (lit "TELEGRAM_BOT_TOKEN") = Some token ->
  environ r (lit "TELEGRAM_CHAT_ID") = Some chat_id ->
  fst (load_seen w) = Ok loaded ->
  run_accepted r loaded = [] ->
  main MAX_ITEMS r w
  = telegram_send_message (net r) token chat_id no_news_message
      (World (seen_json w)
         (trace w
          ++ [Printed (lit "[DEBUG] No articles found in last 12 hours.")])).
Proof.
  intros E1 E2 L A. unfold main, bind, os_environ. rewrite E1, E2. simpl.
  pose proof (load_seen_world w) as W.
  destruct (load_seen w) as [[loaded'|e'] w']; simpl in *; [|discriminate].
  injection L as ->. subst w'. unfold run_accepted, run_pruned, run_now in A.
  rewrite A. reflexivity.
Qed.

Lemma main_digest (MAX_ITEMS : Z) (r : run) (w : world)
    (token chat_id : str) (loaded : list seen_item) :
  environ r (lit "TELEGRAM_BOT_TOKEN") = Some token ->
  environ r (lit "TELEGRAM_CHAT_ID") = Some chat_id ->
  fst (load_seen w) = Ok loaded ->
  run_accepted r loaded <> [] ->
  main MAX_ITEMS r w
  = (telegram_send_message (net r) token chat_id
       (digest_message (run_digest MAX_ITEMS r loaded)) ;;
     save_seen (disk r)
       (run_pruned r loaded ++ run_appended MAX_ITEMS r loaded)) w.
Proof.
  intros E1 E2 L A. unfold main, os_environ. rewrite E1, E2.
  unfold bind at 1 2 3. unfold ret.
  pose proof (load_seen_world w) as W.
  destruct (load_seen w) as [[loaded'|e'] w']; simpl in *; [|discriminate].
  injection L as ->. subst w'.
  unfold run_accepted, run_pruned, run_now in A.
  destruct (collected _) as [|c l] eqn:C; [now destruct A|].
  unfold run_appended, run_digest, run_accepted, run_pruned, run_now.
  rewrite C. reflexivity.
Qed.


Lemma main_digest_delivered (MAX_ITEMS : Z) (r : run) (w : world)
    (token chat_id : str) (loaded : list seen_item) :
  environ r (lit "TELEGRAM_BOT_TOKEN") = Some token ->
  environ r (lit "TELEGRAM_CHAT_ID") = Some chat_id ->
  fst (load_seen w) = Ok loaded ->
  run_accepted r loaded <> [] ->
  net r = Delivered ->
  main MAX_ITEMS r w
  = save_seen (disk r)
      (run_pruned r loaded ++ run_appended MAX_ITEMS r loaded)
      (World (seen_json w)
         (trace w
          ++ [Posted token chat_id
                (digest_message (run_digest MAX_ITEMS r loaded))])).
Proof.
  intros E1 E2 L A N. rewrite (main_digest _ _ _ token chat_id loaded) by assumption.
  rewrite N. reflexivity.
Qed.

Lemma main_undelivered (MAX_ITEMS : Z) (r : run) (w : world) :
  net r <> Delivered ->
  exists e evs,
    main MAX_ITEMS r w = (Raise e, World (seen_json w) (trace w ++ evs))
    /\ forall items, ~ In (SaveSeen items) evs.
Proof.
  intros N.
  assert (Same : w = World (seen_json w) (trace w ++ [])).
  { rewrite app_nil_r. now destruct w. }
  destruct (environ r (lit "TELEGRAM_BOT_TOKEN")) as [token|] eqn:E1.
  2:{ eexists _, []. rewrite main_no_token by exact E1.
      split; [now rewrite <- Same | intros items []]. }
  destruct (environ r (lit "TELEGRAM_CHAT_ID")) as [chat_id|] eqn:E2.
  2:{ eexists _, []. rewrite (main_no_chat_id _ _ _ token) by assumption.
      split; [now rewrite <- Same | intros items []]. }
  destruct (fst (load_seen w)) as [loaded|e] eqn:L.
  2:{ eexists _, []. rewrite (main_load_raises _ _ _ token chat_id e) by assumption.
      split; [now rewrite <- Same | intros items []]. }
  destruct (run_accepted r loaded) as [|c l] eqn:A.
  - rewrite (main_nothing_new _ _ _ token chat_id loaded) by assumption.
    destruct (send_raises (net r) token chat_id no_news_message
                (World (seen_json w)
                   (trace w
                    ++ [Printed
                          (lit "[DEBUG] No articles found in last 12 hours.")]))
                N) as (e & evs & -> & S).
    exists e, (Printed (lit "[DEBUG] No articles found in last 12 hours.") :: evs).
    simpl. split; [now rewrite <- app_assoc|].
    intros items [E|Hin]; [discriminate E | now apply (S items)].
  - rewrite (main_digest _ _ _ token chat_id loaded)
      by (try assumption; rewrite A; discriminate).
    unfold bind.
    destruct (send_raises (net r) token chat_id
                (digest_message (run_digest MAX_ITEMS r loaded)) w N)
      as (e & evs & -> & S).
    now exists e, evs.
Qed.

(** C1: when the delivery fails, whatever the failure, the run ends with an
    exception, [seen.json] holds what it held before the run, and [save_seen]
    is not called. *)
Theorem failed_delivery_saves_nothing (MAX_ITEMS : Z) (r : run) (w : world) :
  net r <> Delivered ->
  exists e evs,
    main MAX_ITEMS r w = (Raise e, World (seen_json w) (trace w ++ evs))
    /\ forall items, ~ In (SaveSeen items) evs.
Proof. apply main_undelivered. Qed.

(** C4, as amended: a run that completes normally has loaded the seen-set and
    delivered a message. When at least one candidate was accepted, it has
    written to [seen.json] the pruned seen-set followed by the items of the
    digest. When no candidate was accepted, it has sent the notice of no news
    and returned: [save_seen] is not called and [seen.json] holds what it held
    before, pruned or not. *)
Theorem normal_run_saves_only_with_a_digest (MAX_ITEMS : Z) (r : run)
    (w w' : world) :
  main MAX_ITEMS r w = (Ok tt, w') ->
  exists token chat_id loaded,
    fst (load_seen w) = Ok loaded
    /\ net r = Delivered
    /\ (run_accepted r loaded = [] ->
        w' = World (seen_json w)
               (trace w
                ++ [Printed (lit "[DEBUG] No articles found in last 12 hours.");
                    Posted token chat_id no_news_message]))
    /\ (run_accepted r loaded <> [] ->
        disk r = WriteOk
        /\ w' = World
                  (Some (json_dump
                           (run_pruned r loaded
                            ++ run_appended MAX_ITEMS r loaded)))
                  (trace w
                   ++ [Posted token chat_id
                         (digest_message (run_digest MAX_ITEMS r loaded));
                       SaveSeen (run_pruned r loaded
                                 ++ run_appended MAX_ITEMS r loaded)])).
Proof.
  intros M.
  destruct (environ r (lit "TELEGRAM_BOT_TOKEN")) as [token|] eqn:E1;
    [|rewrite main_no_token in M by exact E1; discriminate M].
  destruct (environ r (lit "TELEGRAM_CHAT_ID")) as [chat_id|] eqn:E2;
    [|rewrite (main_no_chat_id _ _ _ token) in M by assumption; discriminate M].
  destruct (fst (load_seen w)) as [loaded|e] eqn:L;
    [|rewrite (main_load_raises _ _ _ token chat_id e) in M by assumption;
      discriminate M].
  assert (N : net r = Delivered).
  { destruct (net r) eqn:N; [reflexivity| |].
    all: assert (N' : net r <> Delivered) by (rewrite N; discriminate).
    all: destruct (main_undelivered MAX_ITEMS r w N')
           as (e & evs & M' & _); rewrite M' in M; discriminate M. }
  exists token, chat_id, loaded. split; [reflexivity|]. split; [exact N|].
  split.
  - intros A. rewrite (main_nothing_new _ _ _ token chat_id loaded) in M
      by assumption.
    rewrite N, send_delivered in M. injection M as <-. simpl.
    now rewrite <- app_assoc.
  - intros A.
    rewrite (main_digest_delivered _ _ _ token chat_id loaded) in M
      by assumption.
    unfold save_seen, bind, log in M. simpl in M.
    destruct (disk r); [|discriminate M|discriminate M].
    split; [reflexivity|]. injection M as <-. now rewrite <- app_assoc.
Qed.


Lemma slice_to_firstn {A} (l : list A) (k : Z) :
  exists n, slice_to l k = firstn n l.
Proof. unfold slice_to. destruct (0 <=? k); eexists; reflexivity. Qed.

Lemma firstn_In {A} (n : nat) (l : list A) (x : A) :
  In x (firstn n l) -> In x l.
Proof.
  revert l. induction n as [|n IH]; intros l Hx; [destruct Hx|].
  destruct l as [|z l]; [destruct Hx|]. destruct Hx as [<-|Hx]; [now left|].
  right. now apply IH.
Qed.

Lemma digest_In_accepted (MAX_ITEMS : Z) (accepted : list candidate)
    (c : candidate) :
  In c (assemble MAX_ITEMS accepted) -> In c accepted.
Proof.
  unfold assemble. destruct (slice_to_firstn (sort_desc accepted) MAX_ITEMS)
    as [n ->].
  intros Hc. apply firstn_In in Hc.
  eapply Permutation_in; [apply sort_desc_perm | exact Hc].
Qed.

Lemma key_set_seen_of (key : candidate -> str)
    (get : seen_item -> option str) (now : datetime) (l : list candidate)
    (k : str) :
  (forall c, get (seen_of now c) = Some (key c)) ->
  k ∈ key_set get (map (seen_of now) l) -> In k (nonempty_keys key l).
Proof.
  intros G Hk. apply key_set_elem in Hk. destruct Hk as (Hne & it & Hin & E).
  apply in_map_iff in Hin. destruct Hin as (c & <- & Hc).
  rewrite G in E. injection E as <-. apply nonempty_keys_In.
  split; [exact Hne | now exists c].
Qed.

(** A candidate left out of the digest shares no non-empty key with the items
    saved: neither with those of the pruned seen-set nor with those of the
    digest. *)
Lemma left_out_keys_unsaved (key : candidate -> str)
    (get : seen_item -> option str) (now : datetime)
    (seen_keys : gset str) (pruned : list seen_item)
    (sorted : list candidate) (n : nat) (c : candidate) :
  (forall c, get (seen_of now c) = Some (key c)) ->
  key_set get pruned = seen_keys ->
  NoDup (nonempty_keys key sorted) ->
  (forall c, In c sorted -> known (key c) seen_keys = false) ->
  In c (skipn n sorted) -> key c <> [] ->
  key c ∉ key_set get (pruned ++ map (seen_of now) (firstn n sorted)).
Proof.
  intros G S N K Hc Hne Hin. rewrite key_set_app, elem_of_union in Hin.
  destruct Hin as [Hin|Hin].
  - rewrite S in Hin. specialize (K c (skipn_In n sorted c Hc)).
    apply known_false in K. destruct K as [K|K]; contradiction.
  - apply (key_set_seen_of key) in Hin; [|exact G].
    rewrite <- (firstn_skipn n sorted), nonempty_keys_app in N.
    apply NoDup_app in N. destruct N as (_ & Disj & _).
    apply (Disj (key c)); [now apply list_elem_of_In|].
    apply list_elem_of_In, nonempty_keys_In. split; [exact Hne | now exists c].
Qed.

(** C10: the items a run hands to [save_seen] are the pruned seen-set followed
    by one item for each entry of the digest, which is the truncated list:
    every appended item comes from a candidate that is in the digest, there
    are at most [MAX_ITEMS] of them, and a candidate accepted by the filter
    but cut off by the truncation leaves no non-empty key of its own among the
    keys of the saved seen-set, so that a later run can accept it again. A run
    that completes normally has written exactly these items to [seen.json]. *)
Theorem only_digest_items_are_appended (MAX_ITEMS : Z) (r : run)
    (file : option str) (items : list seen_item) :
  In (SaveSeen items) (trace (snd (main MAX_ITEMS r (start file)))) ->
  exists loaded,
    fst (load_seen (start file)) = Ok loaded
    /\ items = run_pruned r loaded
               ++ map (seen_of (run_now r))
                      (assemble MAX_ITEMS (run_accepted r loaded))
    /\ (forall it,
          In it (run_appended MAX_ITEMS r loaded) ->
          exists c, In c (run_digest MAX_ITEMS r loaded)
                    /\ In c (run_accepted r loaded)
                    /\ it = seen_of (run_now r) c)
    /\ (0 <= MAX_ITEMS ->
        (length (run_appended MAX_ITEMS r loaded) <= Z.to_nat MAX_ITEMS)%nat)
    /\ (0 <= MAX_ITEMS ->
        forall c,
          In c (skipn (Z.to_nat MAX_ITEMS) (sort_desc (run_accepted r loaded))) ->
          (c_url_key c <> [] -> c_url_key c ∉ key_set it_url_key items)
          /\ (c_title_key c <> [] ->
              c_title_key c ∉ key_set it_title_key items))
    /\ (fst (main MAX_ITEMS r (start file)) = Ok tt ->
        seen_json (snd (main MAX_ITEMS r (start file)))
        = Some (json_dump items)).
Proof.
  intros Hin.
  destruct (environ r (lit "TELEGRAM_BOT_TOKEN")) as [token|] eqn:E1;
    [|rewrite main_no_token in Hin by exact E1; destruct Hin].
  destruct (environ r (lit "TELEGRAM_CHAT_ID")) as [chat_id|] eqn:E2;
    [|rewrite (main_no_chat_id _ _ _ token) in Hin by assumption;
      destruct Hin].
  destruct (fst (load_seen (start file))) as [loaded|e] eqn:L;
    [|rewrite (main_load_raises _ _ _ token chat_id e) in Hin by assumption;
      destruct Hin].
  destruct (net r) eqn:N.
  2,3: assert (N' : net r <> Delivered) by (rewrite N; discriminate).
  2,3: destruct (main_undelivered MAX_ITEMS r (start file) N')
         as (e & evs & M & S); rewrite M in Hin; simpl in Hin;
       now apply S in Hin.
  assert (A : run_accepted r loaded = [] \/ run_accepted r loaded <> []).
  { destruct (run_accepted r loaded); [now left | now right]. }
  destruct A as [A|A'].
  { rewrite (main_nothing_new _ _ _ token chat_id loaded) in Hin
      by assumption.
    rewrite N, send_delivered in Hin. simpl in Hin.
    destruct Hin as [E|[E|[]]]; discriminate E. }
  rewrite (main_digest_delivered _ _ _ token chat_id loaded) in * by assumption.
  destruct (save_seen_trace (disk r)
              (run_pruned r loaded ++ run_appended MAX_ITEMS r loaded)
              (World (seen_json (start file))
                 (trace (start file)
                  ++ [Posted token chat_id
                        (digest_message (run_digest MAX_ITEMS r loaded))])))
    as [T Ok'].
  rewrite T in Hin. simpl in Hin.
  destruct Hin as [E|[E|[]]]; [discriminate E|]. injection E as <-.
  exists loaded. split; [reflexivity|]. split; [reflexivity|].
  split; [|split; [|split]].
  - intros it Hit. apply in_map_iff in Hit. destruct Hit as (c & <- & Hc).
    exists c. split; [exact Hc|]. split; [|reflexivity].
    now apply (digest_In_accepted MAX_ITEMS).
  - intros Hk. unfold run_appended, run_digest, assemble.
    rewrite length_map, slice_to_nonneg, length_firstn by exact Hk. lia.
  - intros Hk c Hc.
    pose proof (collect_ok (dt_sub (run_now r) (hours 12))
                  (key_set it_url_key (run_pruned r loaded))
                  (key_set it_title_key (run_pruned r loaded)) r)
      as (_ & Nu & Nt & Kn).
    fold (run_accepted r loaded) in Nu, Nt, Kn.
    unfold run_appended, run_digest, assemble.
    rewrite slice_to_nonneg by exact Hk.
    pose proof (sort_desc_perm (run_accepted r loaded)) as P.
    split; intros Hne.
    + apply (left_out_keys_unsaved c_url_key it_url_key (run_now r)
               (key_set it_url_key (run_pruned r loaded))); try assumption;
        try reflexivity.
      * rewrite (nonempty_keys_perm c_url_key _ _ P). exact Nu.
      * intros c' Hc'. apply Kn. eapply Permutation_in; [exact P|exact Hc'].
    + apply (left_out_keys_unsaved c_title_key it_title_key (run_now r)
               (key_set it_title_key (run_pruned r loaded))); try assumption;
        try reflexivity.
      * rewrite (nonempty_keys_perm c_title_key _ _ P). exact Nt.
      * intros c' Hc'. apply Kn. eapply Permutation_in; [exact P|exact Hc'].
  - exact Ok'.
Qed.

End Runs.

(** * The properties on concrete runs *)

(** The run of three entries published one, three and two hours ago collects
    them as fetched, and the digest lists them most recent first. *)
Example three_run_digest :
  map c_title (run_accepted Demo.three_run [])
  = [lit "One hour ago"; lit "Three hours ago"; lit "Two hours ago"]
  /\ map c_title (run_digest 20 Demo.three_run [])
     = [lit "One hour ago"; lit "Two hours ago"; lit "Three hours ago"]
  /\ map c_title (run_digest 2 Demo.three_run [])
     = [lit "One hour ago"; lit "Two hours ago"].
Proof. vm_compute. repeat split. Qed.

(** C1, on a run whose delivery the server answers with status 400. *)
Lemma failed_delivery_witness :
  net Demo.failing_run <> Delivered
  /\ exists e evs,
       main 20 Demo.failing_run (start None)
       = (Raise e, World (seen_json (start None)) (trace (start None) ++ evs))
       /\ forall items, ~ In (SaveSeen items) evs.
Proof.
  split; [discriminate|].
  apply (failed_delivery_saves_nothing 20 Demo.failing_run (start None)).
  discriminate.
Defined.

(** C2 as stated fails: an entry published exactly twelve hours before the run
    is accepted. *)
Lemma cutoff_entry_accepted :
  parse_published Demo.at_cutoff = Some Demo.midnight
  /\ instant Demo.midnight = instant (run_now Demo.cutoff_run) - hours 12
  /\ run_accepted Demo.cutoff_run []
     = [candidate_of Demo.at_cutoff Demo.midnight].
Proof. vm_compute. repeat split. Qed.

(** C2 as amended, on that entry. *)
Lemma recency_cutoff_witness :
  parse_published Demo.at_cutoff = Some Demo.midnight
  /\ (recent (dt_sub (run_now Demo.cutoff_run) (hours 12)) Demo.at_cutoff = true
      <-> instant (run_now Demo.cutoff_run) - hours 12 <= instant Demo.midnight).
Proof.
  split; [vm_compute; reflexivity|].
  apply (recency_cutoff_is_kept ∅ ∅ (run_now Demo.cutoff_run) (Batch ∅ ∅ [])
           Demo.at_cutoff Demo.midnight).
  vm_compute; reflexivity.
Defined.


(** C4 as stated fails: a run that accepts nothing completes normally and does
    not save: [seen.json] still holds the item that pruning dropped. *)
Lemma quiet_run_saves_nothing :
  run_pruned Demo.quiet_run [Demo.old_item; Demo.yesterday_item]
  = [Demo.yesterday_item]
  /\ main 20 Demo.quiet_run
       (start (Some (json_dump [Demo.old_item; Demo.yesterday_item])))
     = (Ok tt,
        World (Some (json_dump [Demo.old_item; Demo.yesterday_item]))
              [Printed (lit "[DEBUG] No articles found in last 12 hours.");
               Posted (lit "123:abc") (lit "42") no_news_message])
  /\ json_dump [Demo.old_item; Demo.yesterday_item]
     <> json_dump [Demo.yesterday_item].
Proof.
  split; [vm_compute; reflexivity|]. split; [vm_compute; reflexivity|].
  vm_compute. discriminate.
Qed.

(** C4 as amended, on the run of three entries. *)
Lemma normal_run_witness :
  main 2 Demo.three_run (start None)
  = (Ok tt, snd (main 2 Demo.three_run (start None)))
  /\ exists loaded,
       fst (load_seen (start None)) = Ok loaded
       /\ net Demo.three_run = Delivered
       /\ (run_accepted Demo.three_run loaded <> [] ->
           disk Demo.three_run = WriteOk
           /\ seen_json (snd (main 2 Demo.three_run (start None)))
              = Some (json_dump (run_pruned Demo.three_run loaded
                                 ++ run_appended 2 Demo.three_run loaded))).
Proof.
  assert (M : main 2 Demo.three_run (start None)
              = (Ok tt, snd (main 2 Demo.three_run (start None))))
    by (vm_compute; reflexivity).
  split; [exact M|].
  destruct (normal_run_saves_only_with_a_digest 2 Demo.three_run (start None)
              _ M) as (token & chat_id & loaded & L & N & _ & D).
  exists loaded. split; [exact L|]. split; [exact N|].
  intros A. destruct (D A) as [Dk ->]. now split.
Defined.


(** C7 as stated fails: a title made of a bracketed tag, a URL made of a
    fragment and a URL made of a blank have an empty normal form and a key that
    is not empty. *)
Lemma empty_normal_form_is_hashed :
  normalize_title Demo.tag_only_title = []
  /\ snd (make_keys [] Demo.tag_only_title) = sha (lit "title::")
  /\ normalize_url Demo.fragment_only_url = []
  /\ fst (make_keys Demo.fragment_only_url []) = sha (lit "url::")
  /\ normalize_url Demo.blank_url = []
  /\ fst (make_keys Demo.blank_url []) = sha (lit "url::")
  /\ sha (lit "title::") <> [] /\ sha (lit "url::") <> [].
Proof.
  repeat split; try (vm_compute; reflexivity); apply sha_nonempty.
Qed.

(** C8 as stated fails: a write interrupted after twelve characters leaves the
    start of the new text in [seen.json], and the next [load_seen] fails on
    it. *)
Lemma interrupted_save_leaves_partial_file :
  fst (load_seen (start (Some (json_dump [Demo.old_item; Demo.yesterday_item]))))
  = Ok [Demo.old_item; Demo.yesterday_item]
  /\ fst (save_seen (WriteFails 12) [Demo.yesterday_item]
            (start (Some (json_dump [Demo.old_item; Demo.yesterday_item]))))
     = Raise OSError
  /\ seen_json
       (snd (save_seen (WriteFails 12) [Demo.yesterday_item]
               (start (Some (json_dump [Demo.old_item; Demo.yesterday_item])))))
     = Some (lit "{" ++ NL ++ lit "  " ++ DQUOTE ++ lit "items" ++ DQUOTE
             ++ lit ":")
  /\ fst (load_seen
            (snd (save_seen (WriteFails 12) [Demo.yesterday_item]
                    (start (Some (json_dump
                                    [Demo.old_item; Demo.yesterday_item]))))))
     = Raise JSONDecodeError.
Proof. vm_compute. repeat split. Qed.

(** C9, on the three candidates with a maximum of two. *)
Lemma assemble_witness :
  0 <= 2
  /\ assemble 2 (run_accepted Demo.three_run [])
     = firstn 2 (sort_desc (run_accepted Demo.three_run []))
  /\ StronglySorted newer_eq (sort_desc (run_accepted Demo.three_run []))
  /\ length (assemble 2 (run_accepted Demo.three_run [])) = 2%nat.
Proof.
  split; [lia|].
  destruct (assemble_sorted_stable_truncated 2
              (run_accepted Demo.three_run [])) as (E & _ & S & _ & L & _);
    [lia|].
  split; [exact E|]. split; [exact S|]. exact L.
Defined.

(** C10, on the same run: the item of the entry cut off by the maximum of two
    is not appended. *)
Lemma truncated_run_witness :
  In (SaveSeen (run_pruned Demo.three_run []
                ++ run_appended 2 Demo.three_run []))
     (trace (snd (main 2 Demo.three_run (start None))))
  /\ map it_title (run_appended 2 Demo.three_run [])
     = [Some (lit "One hour ago"); Some (lit "Two hours ago")]
  /\ exists loaded,
       fst (load_seen (start None)) = Ok loaded
       /\ run_pruned Demo.three_run [] ++ run_appended 2 Demo.three_run []
          = run_pruned Demo.three_run loaded
            ++ map (seen_of (run_now Demo.three_run))
                   (assemble 2 (run_accepted Demo.three_run loaded)).
Proof.
  assert (Hin : In (SaveSeen (run_pruned Demo.three_run []
                              ++ run_appended 2 Demo.three_run []))
                   (trace (snd (main 2 Demo.three_run (start None)))))
    by (vm_compute; right; left; reflexivity).
  split; [exact Hin|]. split; [vm_compute; reflexivity|].
  destruct (only_digest_items_are_appended 2 Demo.three_run None _ Hin)
    as (loaded & L & E & _).
  exists loaded. split; [exact L | exact E].
Defined.
